(** * A shallow embedding of src/app.py (World Bank Data Explorer)

    The pandas tables of the program become lists of records, in the order
    pandas keeps their rows.  The CSV file enters the model after
    [pd.read_csv(csv_path, skiprows=4)] has parsed it: a [frame] with the
    four identifier columns of every row and, for every further column, its
    header text and the (possibly missing) parsed cell.  Cell values are of
    an arbitrary type [V]; a missing cell (NaN) is [None].  The years after
    [pd.to_numeric(..., errors="coerce")] are [option Z], [None] being the
    NaN that the coercion produces for a non-numeric header. *)

From Stdlib Require Import List String Ascii ZArith Bool Lia.
From Stdlib Require Import Sorting.Sorted Sorting.Permutation.
Import ListNotations.
Open Scope string_scope.

(** ** Data model *)

(** One data row of the CSV as read by [pd.read_csv]. *)
Record raw_row (V : Type) := mk_raw {
  r_name : string;    (* "Country Name" *)
  r_code : string;    (* "Country Code" *)
  r_iname : string;   (* "Indicator Name" *)
  r_icode : string;   (* "Indicator Code" *)
  r_cells : list (option V)  (* the remaining columns, NaN = None *)
}.

(** The parsed CSV: the headers of the non-identifier columns and the rows. *)
Record frame (V : Type) := mk_frame {
  f_years : list string;
  f_rows : list (raw_row V)
}.

(** A row of the long table: the identifier columns, the "Year" column
    (of type [Y]: the header text after [melt], the coerced number after
    [pd.to_numeric]) and the value column named [value_name]. *)
Record obs (Y V : Type) := mk_obs {
  cname : string;
  ccode : string;
  iname : string;
  icode : string;
  year : Y;
  value : option V
}.

Arguments mk_raw {V}.
Arguments r_name {V}. Arguments r_code {V}. Arguments r_iname {V}.
Arguments r_icode {V}. Arguments r_cells {V}.
Arguments mk_frame {V}. Arguments f_years {V}. Arguments f_rows {V}.
Arguments mk_obs {Y V}.
Arguments cname {Y V}. Arguments ccode {Y V}. Arguments iname {Y V}.
Arguments icode {Y V}. Arguments year {Y V}. Arguments value {Y V}.

(** A row of a loaded dataset. *)
Definition row (V : Type) := obs (option Z) V.

(** ** load_generic_data *)

Section Load.

Variable V : Type.

(** [pd.to_numeric(s, errors="coerce")] applied to one header text. *)
Variable to_numeric : string -> option Z.

(** Cell [j] of a row; [read_csv] fills a short row with NaN. *)
Definition cell (r : raw_row V) (j : nat) : option V :=
  match nth_error (r_cells r) j with
  | Some c => c
  | None => None
  end.

(** [df.melt(id_vars=[...], var_name="Year", value_name=value_name)]:
    column after column, and within a column row after row. *)
Fixpoint melt_cols (j : nat) (hs : list string) (rs : list (raw_row V))
  : list (obs string V) :=
  match hs with
  | [] => []
  | h :: hs' =>
      map (fun r => mk_obs (r_name r) (r_code r) (r_iname r) (r_icode r) h (cell r j)) rs
      ++ melt_cols (S j) hs' rs
  end.

Definition melt (df : frame V) : list (obs string V) :=
  melt_cols 0 (f_years df) (f_rows df).

(** [.dropna(subset=[value_name])] *)
Definition dropna {Y : Type} (t : list (obs Y V)) : list (obs Y V) :=
  filter (fun o => match value o with Some _ => true | None => false end) t.

(** [df_long["Year"] = pd.to_numeric(df_long["Year"], errors="coerce")] *)
Definition coerce_year (t : list (obs string V)) : list (row V) :=
  map (fun o => mk_obs (cname o) (ccode o) (iname o) (icode o)
                       (to_numeric (year o)) (value o)) t.

(** The order of [sort_values("Year")]: ascending, NaN placed last
    (pandas' default [na_position="last"]). *)
Definition year_le (a b : option Z) : bool :=
  match a, b with
  | Some x, Some y => Z.leb x y
  | Some _, None => true
  | None, Some _ => false
  | None, None => true
  end.

(** [df_long.sort_values("Year", inplace=True)].  pandas sorts with a
    quicksort whose order among equal years is an implementation detail;
    the model sorts by insertion, which fixes one such order. *)
Fixpoint sort_insert (r : row V) (t : list (row V)) : list (row V) :=
  match t with
  | [] => [r]
  | b :: t' => if year_le (year r) (year b) then r :: b :: t'
               else b :: sort_insert r t'
  end.

Fixpoint sort_values (t : list (row V)) : list (row V) :=
  match t with
  | [] => []
  | r :: t' => sort_insert r (sort_values t')
  end.

(** [load_generic_data(csv_path, value_name)] on the frame that
    [pd.read_csv(csv_path, skiprows=4)] returns; [value_name] only names
    the value column. *)
Definition load_generic_data (df : frame V) (value_name : string) : list (row V) :=
  sort_values (coerce_year (dropna (melt df))).

End Load.

Arguments cell {V}. Arguments melt_cols {V}. Arguments melt {V}.
Arguments dropna {V Y}. Arguments coerce_year {V}.
Arguments sort_insert {V}. Arguments sort_values {V}.
Arguments load_generic_data {V}.

(** ** st.cache_data around load_generic_data

    The decorator keeps a process-wide table from the call's arguments
    [(csv_path, value_name)] to the returned table.  The file system is the
    function [fs] giving the parsed frame at each path. *)

Section Cache.

Variable V : Type.
Variable to_numeric : string -> option Z.
Variable fs : string -> frame V.

Definition cache := list ((string * string) * list (row V)).

Definition args_eqb (a b : string * string) : bool :=
  String.eqb (fst a) (fst b) && String.eqb (snd a) (snd b).

Fixpoint cache_lookup (k : string * string) (c : cache) : option (list (row V)) :=
  match c with
  | [] => None
  | (k', t) :: c' => if args_eqb k k' then Some t else cache_lookup k c'
  end.

(** One call of the decorated [load_generic_data(csv_path, value_name)]:
    a hit returns the stored table, a miss runs the function and stores
    its result. *)
Definition cached_load (c : cache) (csv_path value_name : string)
  : list (row V) * cache :=
  match cache_lookup (csv_path, value_name) c with
  | Some t => (t, c)
  | None =>
      let t := load_generic_data to_numeric (fs csv_path) value_name in
      (t, ((csv_path, value_name), t) :: c)
  end.

(** Every stored table is what the function computes on the current file. *)
Definition cache_ok (c : cache) : Prop :=
  forall k t, cache_lookup k c = Some t ->
              t = load_generic_data to_numeric (fs (fst k)) (snd k).

End Cache.

Arguments args_eqb : simpl never.
Arguments cache_lookup {V}. Arguments cached_load {V}. Arguments cache_ok {V}.

(** ** main *)

(** What the script renders, in order.  A chart or table event carries the
    data handed to the plotting or statistics call that draws it. *)
Inductive event (V : Type) :=
| Title (s : string)
| Multiselect (label : string)
| Subheader (s : string)
| Selectbox (label : string)
| Warning (s : string)
| Write (s : string)
  (** the dual-axis figure: for each selected country, the rows plotted on
      the left axis, then on the right axis *)
| TimeSeriesPlot (left right : string)
    (lines_left lines_right : list (string * list (row V)))
  (** [st.dataframe(df.groupby("Country Name")[name].describe())] *)
| DescribeTable (name : string) (df : list (row V))
  (** [pearsonr(merged[x], merged[y])] and its two [st.write] lines *)
| PearsonReport (xs ys : list (option V))
  (** scatter plot, [np.polyfit(..., 1)] line and [st.pyplot(fig_corr)] *)
| CorrPlot (x y : string) (xs ys : list (option V)).

Arguments Title {V}. Arguments Multiselect {V}. Arguments Subheader {V}.
Arguments Selectbox {V}. Arguments Warning {V}. Arguments Write {V}.
Arguments TimeSeriesPlot {V}. Arguments DescribeTable {V}.
Arguments PearsonReport {V}. Arguments CorrPlot {V}.

(** A row of [pd.merge(filtered[x], filtered[y],
    on=["Country Name", "Country Code", "Year"], suffixes=...)]: the key,
    then the remaining columns of the left row, then of the right row. *)
Record merged_row (V : Type) := mk_merged {
  m_name : string;
  m_code : string;
  m_year : option Z;
  m_iname_x : string;
  m_icode_x : string;
  m_value_x : option V;
  m_iname_y : string;
  m_icode_y : string;
  m_value_y : option V
}.

Arguments mk_merged {V}.
Arguments m_name {V}. Arguments m_code {V}. Arguments m_year {V}.
Arguments m_iname_x {V}. Arguments m_icode_x {V}. Arguments m_value_x {V}.
Arguments m_iname_y {V}. Arguments m_icode_y {V}. Arguments m_value_y {V}.

(** The widget values of the four [st.selectbox] calls. *)
Record choices := mk_choices {
  ts_left : string;
  ts_right : string;
  corr_x : string;
  corr_y : string
}.

Definition opt_bind {A B : Type} (m : option A) (f : A -> option B) : option B :=
  match m with Some a => f a | None => None end.

Notation "x <- m ;; k" := (opt_bind m (fun x => k))
  (at level 61, m at next level, right associativity).

Section Main.

Variable V : Type.

Definition dataset := list (row V).

(** [df["Country Name"].isin(selected_countries)] *)
Definition isin (selected : list string) (o : row V) : bool :=
  existsb (String.eqb (cname o)) selected.

(** [df[df["Country Name"].isin(selected_countries)]] *)
Definition filter_countries (selected : list string) (df : dataset) : dataset :=
  filter (isin selected) df.

(** [{name: df[...isin(...)] for name, df in datasets.items()}] *)
Definition filter_datasets (selected : list string) (ds : list (string * dataset))
  : list (string * dataset) :=
  map (fun '(n, df) => (n, filter_countries selected df)) ds.

(** [filtered[name]]; a missing key raises [KeyError] ([None]). *)
Fixpoint lookup (k : string) (ds : list (string * dataset)) : option dataset :=
  match ds with
  | [] => None
  | (k', d) :: ds' => if String.eqb k k' then Some d else lookup k ds'
  end.

(** [filtered[name][filtered[name]["Country Name"] == country]] *)
Definition country_data (country : string) (df : dataset) : dataset :=
  filter (fun o => String.eqb (cname o) country) df.

Definition plot_lines (selected : list string) (df : dataset)
  : list (string * dataset) :=
  map (fun c => (c, country_data c df)) selected.

Definition time_series_view (filtered : list (string * dataset))
  (selected : list string) (left right : string) : option (list (event V)) :=
  let hd := [Subheader "Time Series Chart";
             Selectbox "Select dataset for left axis:";
             Selectbox "Select dataset for right axis:"] in
  if String.eqb left right then
    Some ((hd ++ [Warning "Please select two distinct datasets for the time series chart."])%list)
  else
    dl <- lookup left filtered ;;
    dr <- lookup right filtered ;;
    Some ((hd ++ [TimeSeriesPlot left right (plot_lines selected dl)
                                           (plot_lines selected dr)])%list).

Definition stats_view (filtered : list (string * dataset)) : list (event V) :=
  flat_map (fun '(n, df) => [Subheader (n ++ " Summary Statistics"); DescribeTable n df])
           filtered.

Definition key_eqb (a b : row V) : bool :=
  String.eqb (cname a) (cname b) && String.eqb (ccode a) (ccode b)
  && match year a, year b with
     | Some p, Some q => Z.eqb p q
     | None, None => true        (* pandas matches NaN keys with each other *)
     | _, _ => false
     end.

Definition merge_rows (a b : row V) : merged_row V :=
  mk_merged (cname a) (ccode a) (year a) (iname a) (icode a) (value a)
            (iname b) (icode b) (value b).

(** [pd.merge(left, right, on=[...])], an inner join: for each left row in
    order, one row per matching right row. *)
Definition merge (l r : dataset) : list (merged_row V) :=
  flat_map (fun a => map (merge_rows a) (filter (key_eqb a) r)) l.

Definition correlation_view (filtered : list (string * dataset)) (x y : string)
  : option (list (event V)) :=
  let hd := [Subheader "Correlation Between Two Datasets";
             Selectbox "Select dataset for X-axis:";
             Selectbox "Select dataset for Y-axis:"] in
  if String.eqb x y then
    Some ((hd ++ [Warning "Please select two distinct datasets for correlation."])%list)
  else
    dx <- lookup x filtered ;;
    dy <- lookup y filtered ;;
    let merged := merge dx dy in
    match merged with
    | [] => Some ((hd ++ [Write "No overlapping data for the selected datasets."])%list)
    | _ :: _ =>
        let xs := map m_value_x merged in
        let ys := map m_value_y merged in
        Some ((hd ++ [PearsonReport xs ys; CorrPlot x y xs ys])%list)
    end.

(** One run of [main()] with the loaded [datasets], the countries chosen in
    the multiselect and the four selectbox values.  [None] is a raised
    exception. *)
Definition main (datasets : list (string * dataset)) (selected : list string)
  (ui : choices) : option (list (event V)) :=
  let hd := [Title "World Bank Data Explorer"; Multiselect "Select countries:"] in
  match selected with
  | [] => Some hd
  | _ :: _ =>
      let filtered := filter_datasets selected datasets in
      ts <- time_series_view filtered selected (ts_left ui) (ts_right ui) ;;
      corr <- correlation_view filtered (corr_x ui) (corr_y ui) ;;
      Some ((hd ++ ts ++ stats_view filtered ++ corr)%list)
  end.

End Main.

Arguments isin {V}. Arguments filter_countries {V}. Arguments filter_datasets {V}.
Arguments lookup {V}. Arguments country_data {V}. Arguments plot_lines {V}.
Arguments time_series_view {V}. Arguments stats_view {V}. Arguments key_eqb {V}.
Arguments merge_rows {V}. Arguments merge {V}. Arguments correlation_view {V}.
Arguments main {V}.

(** ** A concrete coercion for the examples

    [parse_year] reads a nonempty string of decimal digits as its number and
    gives NaN ([None]) for anything else.  It agrees with
    [pd.to_numeric(s, errors="coerce")] on year headers such as "1990" and on
    texts that are no number, such as the "Unnamed: 68" column that a trailing
    comma gives; it does not read signs, decimals or exponents. *)
Fixpoint digits_val (s : string) (acc : Z) : option Z :=
  match s with
  | EmptyString => Some acc
  | String c s' =>
      let n := nat_of_ascii c in
      if (48 <=? n)%nat && (n <=? 57)%nat
      then digits_val s' (acc * 10 + Z.of_nat (n - 48))
      else None
  end.

Definition parse_year (s : string) : option Z :=
  match s with
  | EmptyString => None
  | _ => digits_val s 0
  end.

(** ** General facts *)

Definition row_key {V : Type} (o : row V) : string * string * option Z :=
  (cname o, ccode o, year o).

(** The order of the "Year" column as a relation on rows. *)
Definition year_order {V : Type} (a b : row V) : Prop :=
  year_le (year a) (year b) = true.

(** [a] keeps the elements of [b] that it has, in the order of [b]. *)
Inductive subseq {A : Type} : list A -> list A -> Prop :=
| subseq_nil : subseq [] []
| subseq_skip x l l' : subseq l l' -> subseq l (x :: l')
| subseq_keep x l l' : subseq l l' -> subseq (x :: l) (x :: l').

Lemma year_le_total a b : year_le a b = false -> year_le b a = true.
Proof.
  destruct a as [x|], b as [y|]; simpl; try discriminate; auto.
  intros H. apply Z.leb_gt in H. apply Z.leb_le. lia.
Qed.

Lemma year_le_trans a b c :
  year_le a b = true -> year_le b c = true -> year_le a c = true.
Proof.
  destruct a as [x|], b as [y|], c as [z|]; simpl; try discriminate; auto.
  rewrite !Z.leb_le. lia.
Qed.

#[export] Instance year_order_trans {V : Type} : RelationClasses.Transitive (@year_order V).
Proof. intros a b c. apply year_le_trans. Qed.

Section Facts.

Variable V : Type.
Variable to_numeric : string -> option Z.

Lemma in_melt_cols (o : obs string V) j hs rs :
  In o (melt_cols j hs rs) <->
  exists k h r, nth_error hs k = Some h /\ In r rs /\
    o = mk_obs (r_name r) (r_code r) (r_iname r) (r_icode r) h (cell r (j + k)).
Proof.
  revert j. induction hs as [|h hs IH]; intros j; simpl.
  - split; [tauto|]. intros (k & h & r & Hk & _). destruct k; discriminate.
  - rewrite in_app_iff, in_map_iff, IH. split.
    + intros [(r & Ho & Hr) | (k & h' & r & Hk & Hr & Ho)].
      * exists 0%nat, h, r. rewrite Nat.add_0_r. auto.
      * exists (S k), h', r. rewrite <- plus_n_Sm. auto.
    + intros (k & h' & r & Hk & Hr & Ho). destruct k as [|k]; simpl in Hk.
      * left. inversion Hk; subst. exists r. rewrite Nat.add_0_r. auto.
      * right. exists k, h', r. rewrite <- plus_n_Sm in Ho. auto.
Qed.

Lemma in_dropna {Y : Type} (o : obs Y V) t :
  In o (dropna t) <-> In o t /\ value o <> None.
Proof.
  unfold dropna. rewrite filter_In.
  destruct (value o); split; intros [H1 H2]; split; auto; congruence.
Qed.

Lemma sort_insert_perm (r : row V) t : Permutation (sort_insert r t) (r :: t).
Proof.
  induction t as [|b t IH]; simpl; auto.
  destruct (year_le (year r) (year b)); auto.
  eapply perm_trans; [apply perm_skip, IH | apply perm_swap].
Qed.

Lemma sort_values_perm (t : list (row V)) : Permutation (sort_values t) t.
Proof.
  induction t as [|r t IH]; simpl; auto.
  eapply perm_trans; [apply sort_insert_perm | apply perm_skip, IH].
Qed.

Lemma sort_insert_sorted (r : row V) t :
  Sorted year_order t -> Sorted year_order (sort_insert r t).
Proof.
  induction 1 as [|b t Hs IH Hhd]; simpl.
  - repeat constructor.
  - unfold year_order in *. destruct (year_le (year r) (year b)) eqn:E.
    + constructor; [constructor; auto | constructor; exact E].
    + constructor; [exact IH|].
      destruct t as [|c t]; simpl.
      * constructor. apply year_le_total, E.
      * inversion Hhd; subst. unfold year_order in *.
        destruct (year_le (year r) (year c)); constructor; auto.
        apply year_le_total, E.
Qed.

Lemma sort_values_sorted (t : list (row V)) : Sorted year_order (sort_values t).
Proof.
  induction t as [|r t IH]; simpl; [constructor | apply sort_insert_sorted, IH].
Qed.

Lemma in_load (df : frame V) vn (o : row V) :
  In o (load_generic_data to_numeric df vn) <->
  exists m, In m (melt df) /\ value m <> None /\
    o = mk_obs (cname m) (ccode m) (iname m) (icode m) (to_numeric (year m)) (value m).
Proof.
  unfold load_generic_data. split.
  - intros H. apply (Permutation_in _ (sort_values_perm _)) in H.
    unfold coerce_year in H. apply in_map_iff in H as (m & Hm & Hin).
    apply in_dropna in Hin as [Hin Hv]. exists m. auto.
  - intros (m & Hin & Hv & ->). apply (Permutation_in _ (Permutation_sym (sort_values_perm _))).
    unfold coerce_year. apply in_map_iff. exists m. split; auto. apply in_dropna; auto.
Qed.

End Facts.

Lemma NoDup_map_filter {A B : Type} (f : A -> B) (p : A -> bool) l :
  NoDup (map f l) -> NoDup (map f (filter p l)).
Proof.
  induction l as [|a l IH]; simpl; intros H; [constructor|].
  inversion H as [|? ? Hn Hd]; subst.
  destruct (p a); simpl; auto.
  constructor; auto. intros Hin. apply Hn.
  apply in_map_iff in Hin as (x & Hx & Hin). apply filter_In in Hin as [Hin _].
  rewrite <- Hx. apply in_map, Hin.
Qed.

Lemma NoDup_map_pair {A B C : Type} (f : A -> B) (c : C) l :
  NoDup (map f l) -> NoDup (map (fun x => (f x, c)) l).
Proof.
  induction l as [|a l IH]; simpl; intros H; [constructor|].
  inversion H as [|? ? Hn Hd]; subst. constructor; auto.
  intros Hin. apply Hn. apply in_map_iff in Hin as (x & Hx & Hin).
  injection Hx as Hx. rewrite <- Hx. apply in_map, Hin.
Qed.

Definition code_year {V : Type} (o : row V) : string * option Z := (ccode o, year o).

Section MeltKeys.

Variable V : Type.
Variable to_numeric : string -> option Z.

Lemma melt_cols_keys_nodup j hs (rs : list (raw_row V)) :
  NoDup (map to_numeric hs) -> NoDup (map r_code rs) ->
  NoDup (map (fun m => (ccode m, to_numeric (year m))) (melt_cols j hs rs)).
Proof.
  revert j. induction hs as [|h hs IH]; intros j Hh Hr; simpl; [constructor|].
  inversion Hh as [|? ? Hn Hd]; subst.
  rewrite map_app, map_map. simpl. apply NoDup_app.
  - apply NoDup_map_pair, Hr.
  - apply IH; auto.
  - intros a Ha Hb. apply in_map_iff in Ha as (r & <- & _).
    apply in_map_iff in Hb as (m & Hm & Hin).
    apply in_melt_cols in Hin as (k & h' & r' & Hk & _ & ->).
    simpl in Hm. inversion Hm as [[Hc Hy]]. apply Hn. rewrite <- Hy.
    apply in_map, (nth_error_In _ _ Hk).
Qed.

End MeltKeys.

(** ** The claims *)

(** C1 (corrected).  Every row of the table returned by [load_generic_data]
    has a non-missing value; its Year is numeric when every column whose
    header does not coerce to a number is missing in every row, as the
    all-empty trailing "Unnamed" column of a World Bank file is.  The
    dropna runs before the coercion, so it does not remove rows whose
    header coerces to NaN. *)
Theorem load_rows_value_and_year {V : Type} (to_numeric : string -> option Z)
  (df : frame V) (value_name : string) (o : row V) :
  In o (load_generic_data to_numeric df value_name) ->
  value o <> None /\
  ((forall k h, nth_error (f_years df) k = Some h -> to_numeric h = None ->
      forall r, In r (f_rows df) -> cell r k = None) ->
   year o <> None).
Proof.
  intros Hin. apply in_load in Hin as (m & Hm & Hv & ->). simpl. split; [exact Hv|].
  intros Hcols Hy. unfold melt in Hm.
  apply in_melt_cols in Hm as (k & h & r & Hk & Hr & ->). simpl in *.
  apply Hv, (Hcols k h Hk Hy r Hr).
Qed.

(** A CSV with a non-numeric column "Notes" that holds a value. *)
Definition df_notes : frame Z :=
  mk_frame ["1990"; "Notes"]
    [mk_raw "Sweden" "SWE" "Birth rate, crude" "SP.DYN.CBRT.IN" [Some 14%Z; Some 1%Z]].

(** C1 counterexample: the "Notes" cell survives with a missing Year. *)
Lemma load_keeps_nan_year :
  ~ (forall o, In o (load_generic_data parse_year df_notes "Birth Rate") ->
               year o <> None /\ value o <> None).
Proof.
  intros H.
  assert (Hin : In (mk_obs "Sweden" "SWE" "Birth rate, crude" "SP.DYN.CBRT.IN" None (Some 1%Z))
                   (load_generic_data parse_year df_notes "Birth Rate"))
    by (vm_compute; right; left; reflexivity).
  destruct (H _ Hin) as [Hy _]. apply Hy. reflexivity.
Qed.

(** Witness of C1 on the World Bank layout: year columns and an empty
    trailing column. *)
Lemma load_rows_value_and_year_witness :
  let df := mk_frame ["1990"; "1991"; "Unnamed: 6"]
              [mk_raw "Sweden" "SWE" "Birth rate, crude" "SP.DYN.CBRT.IN"
                      [Some 14%Z; None; None]] in
  let o := mk_obs "Sweden" "SWE" "Birth rate, crude" "SP.DYN.CBRT.IN" (Some 1990%Z) (Some 14%Z) in
  In o (load_generic_data parse_year df "Birth Rate") /\
  (value o <> None /\
   ((forall k h, nth_error (f_years df) k = Some h -> parse_year h = None ->
       forall r, In r (f_rows df) -> cell r k = None) -> year o <> None)).
Proof.
  intros df o.
  assert (Hin : In o (load_generic_data parse_year df "Birth Rate"))
    by (vm_compute; left; reflexivity).
  split; [exact Hin | apply (load_rows_value_and_year parse_year df "Birth Rate" o Hin)].
Defined.

(** C7.  The loaded table is sorted by Year in ascending order, rows whose
    Year is missing (NaN) placed last. *)
Theorem load_sorted_by_year {V : Type} (to_numeric : string -> option Z)
  (df : frame V) (value_name : string) :
  Sorted year_order (load_generic_data to_numeric df value_name).
Proof. apply sort_values_sorted. Qed.

(** C8 (corrected).  The loader keeps one row per input row and year
    column, with no deduplication: the table has at most one row per
    (country code, Year) when the input rows have pairwise distinct country
    codes and the year headers coerce to pairwise distinct values. *)
Theorem load_code_year_unique {V : Type} (to_numeric : string -> option Z)
  (df : frame V) (value_name : string) :
  NoDup (map r_code (f_rows df)) ->
  NoDup (map to_numeric (f_years df)) ->
  NoDup (map code_year (load_generic_data to_numeric df value_name)).
Proof.
  intros Hr Hh. unfold load_generic_data.
  eapply Permutation_NoDup; [apply Permutation_map, Permutation_sym, sort_values_perm|].
  unfold coerce_year. rewrite map_map. unfold code_year. simpl.
  unfold dropna. apply NoDup_map_filter.
  apply melt_cols_keys_nodup; auto.
Qed.

(** A CSV that lists the same country code twice. *)
Definition df_dup : frame Z :=
  mk_frame ["1990"]
    [mk_raw "Sweden" "SWE" "Birth rate, crude" "SP.DYN.CBRT.IN" [Some 14%Z];
     mk_raw "Sweden" "SWE" "Birth rate, crude" "SP.DYN.CBRT.IN" [Some 15%Z]].

(** C8 counterexample: two rows for (SWE, 1990). *)
Lemma load_duplicate_code_year :
  ~ NoDup (map code_year (load_generic_data parse_year df_dup "Birth Rate")).
Proof.
  vm_compute. intros H. inversion H as [|? ? Hn _]. apply Hn. left. reflexivity.
Qed.

Lemma load_code_year_unique_witness :
  let df := mk_frame ["1990"; "1991"]
              [mk_raw "Sweden" "SWE" "Birth rate, crude" "SP.DYN.CBRT.IN" [Some 14%Z; Some 13%Z];
               mk_raw "Switzerland" "CHE" "Birth rate, crude" "SP.DYN.CBRT.IN" [Some 12%Z; None]] in
  NoDup (map r_code (f_rows df)) /\ NoDup (map parse_year (f_years df)) /\
  NoDup (map code_year (load_generic_data parse_year df "Birth Rate")).
Proof.
  intros df.
  assert (H1 : NoDup (map r_code (f_rows df))).
  { vm_compute. repeat constructor; simpl; intuition discriminate. }
  assert (H2 : NoDup (map parse_year (f_years df))).
  { vm_compute. repeat constructor; simpl; intuition discriminate. }
  split; [exact H1 | split; [exact H2 | apply (load_code_year_unique parse_year df _ H1 H2)]].
Defined.

Lemma isin_true {V : Type} (selected : list string) (o : row V) :
  isin selected o = true <-> In (cname o) selected.
Proof.
  unfold isin. rewrite existsb_exists. split.
  - intros (s & Hs & E). apply String.eqb_eq in E. subst. exact Hs.
  - intros H. exists (cname o). split; [exact H | apply String.eqb_refl].
Qed.

Lemma in_filter_countries {V : Type} selected (df : dataset V) o :
  In o (filter_countries selected df) <-> In o df /\ In (cname o) selected.
Proof. unfold filter_countries. rewrite filter_In, isin_true. tauto. Qed.

Lemma lookup_filter_datasets {V : Type} selected (ds : list (string * dataset V)) n :
  lookup n (filter_datasets selected ds) =
  match lookup n ds with Some d => Some (filter_countries selected d) | None => None end.
Proof.
  induction ds as [|[k d] ds IH]; simpl; auto.
  destruct (String.eqb n k); auto.
Qed.

Lemma key_eqb_true {V : Type} (a b : row V) :
  key_eqb a b = true <-> row_key a = row_key b.
Proof.
  unfold key_eqb, row_key. rewrite !andb_true_iff, !String.eqb_eq.
  destruct (year a) as [p|], (year b) as [q|]; simpl.
  - rewrite Z.eqb_eq. split; [intros [[-> ->] ->]; auto | intros H; inversion H; auto].
  - split; [intros [_ H]; discriminate | intros H; inversion H].
  - split; [intros [_ H]; discriminate | intros H; inversion H].
  - split; [intros [[-> ->] _]; auto | intros H; inversion H; auto].
Qed.

Lemma in_merge {V : Type} (l r : dataset V) m :
  In m (merge l r) <->
  exists a b, In a l /\ In b r /\ row_key a = row_key b /\ m = merge_rows a b.
Proof.
  unfold merge. rewrite in_flat_map. split.
  - intros (a & Ha & Hm). apply in_map_iff in Hm as (b & <- & Hb).
    apply filter_In in Hb as [Hb E]. apply key_eqb_true in E. exists a, b. auto.
  - intros (a & b & Ha & Hb & E & ->). exists a. split; [exact Ha|].
    apply in_map. apply filter_In. split; [exact Hb | apply key_eqb_true, E].
Qed.

Lemma merge_nil_iff {V : Type} (l r : dataset V) :
  merge l r = [] <-> forall a b, In a l -> In b r -> row_key a <> row_key b.
Proof.
  split.
  - intros H a b Ha Hb E. assert (Hin : In (merge_rows a b) (merge l r))
      by (apply in_merge; exists a, b; auto).
    rewrite H in Hin. exact Hin.
  - intros H. destruct (merge l r) as [|m ms] eqn:E; [reflexivity|].
    assert (Hin : In m (merge l r)) by (rewrite E; left; reflexivity).
    apply in_merge in Hin as (a & b & Ha & Hb & Hk & _). exfalso. apply (H a b Ha Hb Hk).
Qed.

Lemma filter_subseq {A : Type} (p : A -> bool) l : subseq (filter p l) l.
Proof.
  induction l as [|a l IH]; simpl; [constructor|].
  destruct (p a); constructor; exact IH.
Qed.

Lemma StronglySorted_filter {A : Type} (R : A -> A -> Prop) (p : A -> bool) l :
  StronglySorted R l -> StronglySorted R (filter p l).
Proof.
  induction 1 as [|a l Hs IH Hall]; simpl; [constructor|].
  destruct (p a); [|exact IH]. constructor; [exact IH|].
  rewrite Forall_forall in *. intros x Hx. apply filter_In in Hx as [Hx _]. auto.
Qed.

(** C2.  Filtering a loaded dataset by the selection [S] keeps exactly its
    rows whose country name is in [S]; its country names are those of [S]
    that the dataset has. *)
Theorem filtered_rows_exact {V : Type} (datasets : list (string * dataset V))
  (S : list string) (name : string) (D : dataset V) :
  lookup name datasets = Some D ->
  exists F, lookup name (filter_datasets S datasets) = Some F /\
    (forall o, In o F <-> In o D /\ In (cname o) S) /\
    (forall c, In c (map cname F) -> In c S) /\
    (forall c, In c (map cname F) <-> In c S /\ In c (map cname D)).
Proof.
  intros HD. exists (filter_countries S D).
  rewrite lookup_filter_datasets, HD. split; [reflexivity|].
  split; [apply in_filter_countries|].
  assert (Hc : forall c, In c (map cname (filter_countries S D)) <-> In c S /\ In c (map cname D)).
  { intros c. rewrite !in_map_iff. split.
    - intros (o & <- & Ho). apply in_filter_countries in Ho as [Ho Hs].
      split; [exact Hs | exists o; auto].
    - intros [Hs (o & <- & Ho)]. exists o. split; [reflexivity|].
      apply in_filter_countries; auto. }
  split; [intros c H; apply Hc, H | exact Hc].
Qed.

Definition row_sw : row Z := mk_obs "Sweden" "SWE" "Birth rate, crude" "SP.DYN.CBRT.IN" (Some 1990%Z) (Some 14%Z).
Definition row_ch : row Z := mk_obs "Switzerland" "CHE" "Birth rate, crude" "SP.DYN.CBRT.IN" (Some 1990%Z) (Some 12%Z).
Definition row_no : row Z := mk_obs "Norway" "NOR" "Birth rate, crude" "SP.DYN.CBRT.IN" (Some 1990%Z) (Some 13%Z).

Lemma filtered_rows_exact_witness :
  lookup "Birth Rate" [("Birth Rate", [row_sw; row_no; row_ch])] = Some [row_sw; row_no; row_ch] /\
  exists F, lookup "Birth Rate" (filter_datasets ["Sweden"; "Switzerland"]
                                   [("Birth Rate", [row_sw; row_no; row_ch])]) = Some F /\
    (forall o, In o F <-> In o [row_sw; row_no; row_ch] /\ In (cname o) ["Sweden"; "Switzerland"]) /\
    (forall c, In c (map cname F) -> In c ["Sweden"; "Switzerland"]) /\
    (forall c, In c (map cname F) <-> In c ["Sweden"; "Switzerland"] /\
                                      In c (map cname [row_sw; row_no; row_ch])).
Proof.
  split; [reflexivity|]. apply filtered_rows_exact. reflexivity.
Defined.

(** C3.  The merged pair table holds exactly one row per pair of a row of
    the first filtered dataset and a row of the second with the same
    (country name, country code, Year) key; it is empty exactly when the
    two share no key. *)
Theorem merge_inner_join {V : Type} (dx dy : dataset V) :
  (forall m, In m (merge dx dy) <->
     exists a b, In a dx /\ In b dy /\ row_key a = row_key b /\ m = merge_rows a b) /\
  (forall k, In k (map (fun m => (m_name m, m_code m, m_year m)) (merge dx dy)) <->
     In k (map row_key dx) /\ In k (map row_key dy)) /\
  (merge dx dy = [] <-> forall a b, In a dx -> In b dy -> row_key a <> row_key b).
Proof.
  split; [apply in_merge|]. split; [|apply merge_nil_iff].
  intros k. rewrite !in_map_iff. split.
  - intros (m & <- & Hm). apply in_merge in Hm as (a & b & Ha & Hb & E & ->).
    split; [exists a | exists b]; split; auto.
  - intros [(a & <- & Ha) (b & Eb & Hb)]. exists (merge_rows a b). split; [reflexivity|].
    apply in_merge. exists a, b. auto.
Qed.

(** C10.  Filtering by the selected countries keeps the loaded rows in
    their order, and each per-country series drawn in the time-series chart,
    as well as the merged table of the correlation view, stays in
    ascending Year order. *)
Theorem filtered_series_sorted {V : Type} (to_numeric : string -> option Z)
  (df : frame V) (value_name : string) (S : list string) (country : string)
  (dy : dataset V) :
  let L := load_generic_data to_numeric df value_name in
  subseq (filter_countries S L) L /\
  subseq (country_data country (filter_countries S L)) L /\
  StronglySorted year_order (country_data country (filter_countries S L)) /\
  StronglySorted (fun a b => year_le a b = true)
                 (map m_year (merge (filter_countries S L) dy)).
Proof.
  intros L.
  assert (HL : StronglySorted year_order L)
    by (apply Sorted_StronglySorted; [apply year_order_trans | apply sort_values_sorted]).
  assert (HF : StronglySorted year_order (filter_countries S L))
    by (apply StronglySorted_filter, HL).
  split; [apply filter_subseq|].
  split.
  { unfold country_data, filter_countries. remember (filter (isin S) L) as F.
    assert (Hs : subseq F L) by (subst; apply filter_subseq).
    clear -Hs. induction Hs.
    - constructor.
    - apply subseq_skip, IHHs.
    - simpl. destruct (String.eqb (cname x) country);
        [apply subseq_keep | apply subseq_skip]; exact IHHs. }
  split; [apply StronglySorted_filter, HF|].
  clear HL. induction HF as [|a F HF IH Hall]; simpl; [constructor|].
  rewrite map_app. unfold merge in IH.
  assert (Hyear : forall m, In m (map (merge_rows a) (filter (key_eqb a) dy)) -> m_year m = year a).
  { intros m Hm. apply in_map_iff in Hm as (b & <- & _). reflexivity. }
  assert (Hrest : forall y, In y (map m_year (flat_map (fun a0 => map (merge_rows a0) (filter (key_eqb a0) dy)) F)) ->
                            year_le (year a) y = true).
  { intros y Hy. apply in_map_iff in Hy as (m & <- & Hm). apply in_flat_map in Hm as (a' & Ha' & Hm).
    apply in_map_iff in Hm as (b & <- & _). simpl. rewrite Forall_forall in Hall. apply (Hall a' Ha'). }
  induction (filter (key_eqb a) dy) as [|b bs IHb]; simpl; [exact IH|].
  constructor.
  - apply IHb. intros m Hm. apply Hyear. right. exact Hm.
  - apply Forall_forall. intros y Hy. apply in_app_or in Hy as [Hy|Hy].
    + apply in_map_iff in Hy as (m & <- & Hm). apply in_map_iff in Hm as (b' & <- & _).
      simpl. destruct (year a) as [z|]; simpl; [apply Z.leb_refl | reflexivity].
    + apply Hrest, Hy.
Qed.

(** ** Events of the views *)

Definition is_ts_chart {V : Type} (e : event V) : bool :=
  match e with TimeSeriesPlot _ _ _ _ => true | _ => false end.

(** The correlation computations: Pearson's coefficient and the scatter plot
    with its regression fit. *)
Definition is_corr_output {V : Type} (e : event V) : bool :=
  match e with PearsonReport _ _ | CorrPlot _ _ _ _ => true | _ => false end.

Definition is_stats_table {V : Type} (e : event V) : bool :=
  match e with DescribeTable _ _ => true | _ => false end.

Definition ts_warning := "Please select two distinct datasets for the time series chart.".
Definition corr_warning := "Please select two distinct datasets for correlation.".
Definition no_overlap := "No overlapping data for the selected datasets.".

Ltac events_tac :=
  let e := fresh "e" in let He := fresh "He" in
  intros e He; simpl in He; repeat destruct He as [<-|He]; try reflexivity; try contradiction.

Section Views.

Variable V : Type.
Implicit Types (f : list (string * dataset V)).

Lemma ts_view_no_corr f s l r ts :
  time_series_view f s l r = Some ts -> forall e, In e ts -> is_corr_output e = false.
Proof.
  unfold time_series_view. destruct (String.eqb l r).
  - intros H; inversion H; subst. events_tac.
  - destruct (lookup l f), (lookup r f); simpl; intros H; inversion H; subst. events_tac.
Qed.

Lemma ts_view_same f s l ts :
  time_series_view f s l l = Some ts ->
  In (Warning ts_warning) ts /\ forall e, In e ts -> is_ts_chart e = false.
Proof.
  unfold time_series_view. rewrite String.eqb_refl. intros H; inversion H; subst.
  split; [simpl; tauto | events_tac].
Qed.

Lemma stats_view_plain f :
  forall e : event V, In e (stats_view f) -> is_ts_chart e = false /\ is_corr_output e = false.
Proof.
  intros e He. unfold stats_view in He. apply in_flat_map in He as ([n df] & _ & He).
  simpl in He. destruct He as [<-|[<-|[]]]; auto.
Qed.

Lemma corr_view_no_ts f x y c :
  correlation_view f x y = Some c -> forall e, In e c -> is_ts_chart e = false.
Proof.
  unfold correlation_view. destruct (String.eqb x y).
  - intros H; inversion H; subst. events_tac.
  - destruct (lookup x f), (lookup y f); simpl; try discriminate.
    destruct (merge _ _); intros H; inversion H; subst; events_tac.
Qed.

Lemma corr_view_same f x c :
  correlation_view f x x = Some c ->
  In (Warning corr_warning) c /\ forall e, In e c -> is_corr_output e = false.
Proof.
  unfold correlation_view. rewrite String.eqb_refl. intros H; inversion H; subst.
  split; [simpl; tauto | events_tac].
Qed.

Lemma corr_view_empty f x y dx dy :
  x <> y -> lookup x f = Some dx -> lookup y f = Some dy -> merge dx dy = [] ->
  correlation_view f x y =
  Some [Subheader "Correlation Between Two Datasets";
        Selectbox "Select dataset for X-axis:";
        Selectbox "Select dataset for Y-axis:";
        Write no_overlap].
Proof.
  intros Hxy Hx Hy Hm. unfold correlation_view.
  destruct (String.eqb x y) eqn:E; [apply String.eqb_eq in E; contradiction|].
  rewrite Hx, Hy. simpl. rewrite Hm. reflexivity.
Qed.

Lemma main_some ds s ui evs :
  s <> [] -> main ds s ui = Some evs ->
  exists ts corr,
    time_series_view (filter_datasets s ds) s (ts_left ui) (ts_right ui) = Some ts /\
    correlation_view (filter_datasets s ds) (corr_x ui) (corr_y ui) = Some corr /\
    evs = ([@Title V "World Bank Data Explorer"; Multiselect "Select countries:"]
           ++ ts ++ stats_view (filter_datasets s ds) ++ corr)%list.
Proof.
  intros Hs. unfold main. destruct s as [|c s]; [contradiction|].
  destruct (time_series_view _ _ _ _) as [ts|] eqn:Ets; simpl; [|discriminate].
  destruct (correlation_view _ _ _) as [corr|] eqn:Ec; simpl; [|discriminate].
  intros H; inversion H; subst. exists ts, corr. auto.
Qed.

End Views.

Lemma args_eqb_true (a b : string * string) : args_eqb a b = true <-> a = b.
Proof.
  destruct a as [a1 a2], b as [b1 b2]. unfold args_eqb; simpl.
  rewrite andb_true_iff, !String.eqb_eq. split; [intros [-> ->]; auto | intros H; inversion H; auto].
Qed.

(** C4.  Once countries are selected and the views are shown, choosing the
    same indicator for both axes of a dual view replaces that view's chart
    by a warning: with equal time-series axes no time-series chart is drawn,
    with equal correlation axes neither the Pearson report nor the
    correlation plot is computed. *)
Theorem same_indicator_warns {V : Type} (datasets : list (string * dataset V))
  (selected : list string) (ui : choices) (evs : list (event V)) :
  selected <> [] -> main datasets selected ui = Some evs ->
  (ts_left ui = ts_right ui ->
     In (Warning ts_warning) evs /\ forall e, In e evs -> is_ts_chart e = false) /\
  (corr_x ui = corr_y ui ->
     In (Warning corr_warning) evs /\ forall e, In e evs -> is_corr_output e = false).
Proof.
  intros Hs Hm. apply main_some in Hm as (ts & corr & Hts & Hc & ->); [|exact Hs].
  split; intros E.
  - rewrite E in Hts. apply ts_view_same in Hts as [Hw Hno].
    split; [apply in_or_app; right; apply in_or_app; left; exact Hw|].
    intros e He. simpl in He. destruct He as [<-|[<-|He]]; [reflexivity|reflexivity|].
    apply in_app_or in He as [He|He]; [apply Hno, He|].
    apply in_app_or in He as [He|He]; [apply (stats_view_plain _ _ _ He) | apply (corr_view_no_ts _ _ _ _ _ Hc _ He)].
  - rewrite E in Hc. apply corr_view_same in Hc as [Hw Hno].
    split; [apply in_or_app; right; apply in_or_app; right; apply in_or_app; right; exact Hw|].
    intros e He. simpl in He. destruct He as [<-|[<-|He]]; [reflexivity|reflexivity|].
    apply in_app_or in He as [He|He]; [apply (ts_view_no_corr _ _ _ _ _ _ Hts _ He)|].
    apply in_app_or in He as [He|He]; [apply (stats_view_plain _ _ _ He) | apply Hno, He].
Qed.

Definition ui_same : choices := mk_choices "Birth Rate" "Birth Rate" "Birth Rate" "Birth Rate".

Lemma same_indicator_warns_witness :
  let ds := [("Birth Rate", [row_sw; row_ch]); ("Real GDP (USD)", @nil (row Z))] in
  exists evs, main ds ["Sweden"; "Switzerland"] ui_same = Some evs /\
  ((ts_left ui_same = ts_right ui_same ->
     In (Warning ts_warning) evs /\ forall e, In e evs -> is_ts_chart e = false) /\
   (corr_x ui_same = corr_y ui_same ->
     In (Warning corr_warning) evs /\ forall e, In e evs -> is_corr_output e = false)).
Proof.
  intros ds. eexists. split; [reflexivity|].
  apply (same_indicator_warns ds ["Sweden"; "Switzerland"] ui_same); [discriminate | reflexivity].
Defined.

(** C5.  With two distinct correlation indicators whose filtered datasets
    share no (country name, country code, Year) key, the merged table is
    empty and the view writes the no-overlapping-data message instead of
    computing the Pearson report and the correlation plot. *)
Theorem no_overlap_reports {V : Type} (datasets : list (string * dataset V))
  (selected : list string) (ui : choices) (dx dy : dataset V) :
  selected <> [] -> corr_x ui <> corr_y ui ->
  lookup (corr_x ui) (filter_datasets selected datasets) = Some dx ->
  lookup (corr_y ui) (filter_datasets selected datasets) = Some dy ->
  (forall a b, In a dx -> In b dy -> row_key a <> row_key b) ->
  merge dx dy = [] /\
  forall evs, main datasets selected ui = Some evs ->
    In (Write no_overlap) evs /\ forall e, In e evs -> is_corr_output e = false.
Proof.
  intros Hs Hxy Hx Hy Hk.
  assert (Hm : merge dx dy = []) by (apply merge_nil_iff, Hk).
  split; [exact Hm|]. intros evs Hmain.
  apply main_some in Hmain as (ts & corr & Hts & Hc & ->); [|exact Hs].
  rewrite (corr_view_empty _ _ _ _ _ _ Hxy Hx Hy Hm) in Hc. inversion Hc; subst corr.
  split.
  - apply in_or_app; right; apply in_or_app; right; apply in_or_app; right. simpl; tauto.
  - intros e He. simpl in He. destruct He as [<-|[<-|He]]; [reflexivity|reflexivity|].
    apply in_app_or in He as [He|He]; [apply (ts_view_no_corr _ _ _ _ _ _ Hts _ He)|].
    apply in_app_or in He as [He|He]; [apply (stats_view_plain _ _ _ He) |].
    simpl in He. repeat destruct He as [<-|He]; try reflexivity; contradiction.
Qed.

Definition row_sw_gdp : row Z :=
  mk_obs "Sweden" "SWE" "Adjusted net national income per capita" "NY.ADJ.NNTY.PC.CD" (Some 2000%Z) (Some 30000%Z).

Definition ui_default : choices :=
  mk_choices "Birth Rate" "Real GDP (USD)" "Birth Rate" "Real GDP (USD)".

Lemma no_overlap_reports_witness :
  let ds := [("Birth Rate", [row_sw]); ("Real GDP (USD)", [row_sw_gdp])] in
  exists evs, main ds ["Sweden"] ui_default = Some evs /\
  (merge [row_sw] [row_sw_gdp] = [] /\
   forall evs, main ds ["Sweden"] ui_default = Some evs ->
     In (Write no_overlap) evs /\ forall e, In e evs -> is_corr_output e = false).
Proof.
  intros ds. eexists. split; [reflexivity|].
  apply (no_overlap_reports ds ["Sweden"] ui_default [row_sw] [row_sw_gdp]);
    [discriminate | discriminate | reflexivity | reflexivity |].
  intros a b Ha Hb. simpl in Ha, Hb.
  destruct Ha as [<-|[]], Hb as [<-|[]]. discriminate.
Defined.

(** C6.  [load_generic_data] is a function of the file contents and of
    [value_name], and the cache is transparent: while every stored table is
    what the function computes on the current files, a call returns exactly
    [load_generic_data] of the file, keeps that property, and a second call
    with the same arguments returns the same table. *)
Theorem cached_load_transparent {V : Type} (to_numeric : string -> option Z)
  (fs : string -> frame V) (c : cache V) (csv_path value_name : string) :
  cache_ok to_numeric fs c ->
  let '(t1, c1) := cached_load to_numeric fs c csv_path value_name in
  t1 = load_generic_data to_numeric (fs csv_path) value_name /\
  cache_ok to_numeric fs c1 /\
  fst (cached_load to_numeric fs c1 csv_path value_name) = t1.
Proof.
  intros Hok. unfold cached_load.
  destruct (cache_lookup (csv_path, value_name) c) as [t|] eqn:E.
  - rewrite E. split; [apply (Hok _ _ E) | split; [exact Hok | reflexivity]].
  - set (t := load_generic_data to_numeric (fs csv_path) value_name).
    split; [reflexivity|]. split.
    + intros k t' Hk. simpl in Hk. destruct (args_eqb k (csv_path, value_name)) eqn:Ek.
      * apply args_eqb_true in Ek. subst k. inversion Hk. reflexivity.
      * apply (Hok _ _ Hk).
    + simpl. rewrite (proj2 (args_eqb_true _ _) eq_refl). reflexivity.
Qed.

Lemma cached_load_transparent_witness :
  let fs := fun _ : string => df_notes in
  cache_ok parse_year fs [] /\
  let '(t1, c1) := cached_load parse_year fs [] "birth.csv" "Birth Rate" in
  t1 = load_generic_data parse_year (fs "birth.csv") "Birth Rate" /\
  cache_ok parse_year fs c1 /\
  fst (cached_load parse_year fs c1 "birth.csv" "Birth Rate") = t1.
Proof.
  intros fs.
  assert (H : cache_ok parse_year fs []) by (intros k t Hk; discriminate).
  split; [exact H | apply (cached_load_transparent parse_year fs [] "birth.csv" "Birth Rate" H)].
Defined.

(** C9 (corrected).  With an empty selection the script renders only its
    title and the multiselect: no chart, no summary table, no error, and no
    message either. *)
Theorem empty_selection_renders_nothing {V : Type}
  (datasets : list (string * dataset V)) (ui : choices) :
  main datasets [] ui =
  Some [Title "World Bank Data Explorer"; Multiselect "Select countries:"].
Proof. reflexivity. Qed.

(** C9 counterexample: the empty selection shows no informational message. *)
Lemma empty_selection_no_message :
  exists evs, main (V := Z) [("Birth Rate", [row_sw])] [] ui_default = Some evs /\
    forall s, ~ In (Write s) evs /\ ~ In (Warning s) evs.
Proof.
  eexists. split; [reflexivity|].
  intros s. simpl. split; intros H; destruct H as [H|[H|[]]]; discriminate.
Qed.

(** ** Further properties of the loader, the cache and the filter *)

Definition is_present {A : Type} (c : option A) : bool :=
  match c with Some _ => true | None => false end.

Lemma length_filter_map_ext {A B C : Type} (f : A -> B) (g : A -> C)
  (p : B -> bool) (q : C -> bool) l :
  (forall x, p (f x) = q (g x)) ->
  List.length (filter p (map f l)) = List.length (filter q (map g l)).
Proof.
  intros H. induction l as [|a l IH]; simpl; auto.
  rewrite H. destruct (q (g a)); simpl; auto.
Qed.

Lemma melt_cols_dropna_length {V : Type} j hs (rs : list (raw_row V)) :
  List.length (dropna (melt_cols j hs rs)) =
  List.length (filter (fun jr => is_present (cell (snd jr) (fst jr)))
                 (list_prod (seq j (List.length hs)) rs)).
Proof.
  revert j. induction hs as [|h hs IH]; intros j; simpl; auto.
  unfold dropna in *. rewrite !filter_app, !length_app, IH. f_equal.
  apply length_filter_map_ext. intros r. reflexivity.
Qed.

(** X1.  The loaded table has exactly one row per non-missing cell of the
    year columns: its length is the number of (column, row) pairs whose cell
    is present. *)
Theorem load_length_present_cells {V : Type} (to_numeric : string -> option Z)
  (df : frame V) (value_name : string) :
  List.length (load_generic_data to_numeric df value_name) =
  List.length (filter (fun jr => is_present (cell (snd jr) (fst jr)))
                 (list_prod (seq 0 (List.length (f_years df))) (f_rows df))).
Proof.
  unfold load_generic_data. rewrite (Permutation_length (sort_values_perm _ _)).
  unfold coerce_year. rewrite length_map. apply melt_cols_dropna_length.
Qed.

(** X2.  No data point is lost: every present cell of a year column appears
    in the loaded table, with the row's identifiers, the coerced header as
    its Year and the cell as its value. *)
Theorem load_keeps_present_cells {V : Type} (to_numeric : string -> option Z)
  (df : frame V) (value_name : string) (k : nat) (h : string)
  (r : raw_row V) (v : V) :
  nth_error (f_years df) k = Some h -> In r (f_rows df) -> cell r k = Some v ->
  In (mk_obs (r_name r) (r_code r) (r_iname r) (r_icode r) (to_numeric h) (Some v))
     (load_generic_data to_numeric df value_name).
Proof.
  intros Hk Hr Hc. apply in_load.
  exists (mk_obs (r_name r) (r_code r) (r_iname r) (r_icode r) h (Some v)).
  split; [|split; [discriminate | reflexivity]].
  unfold melt. apply in_melt_cols. exists k, h, r. simpl. rewrite Hc. auto.
Qed.

Lemma load_keeps_present_cells_witness :
  nth_error (f_years df_notes) 0 = Some "1990" /\
  In (mk_raw "Sweden" "SWE" "Birth rate, crude" "SP.DYN.CBRT.IN" [Some 14%Z; Some 1%Z]) (f_rows df_notes) /\
  cell (mk_raw "Sweden" "SWE" "Birth rate, crude" "SP.DYN.CBRT.IN" [Some 14%Z; Some 1%Z]) 0 = Some 14%Z /\
  In (mk_obs "Sweden" "SWE" "Birth rate, crude" "SP.DYN.CBRT.IN" (parse_year "1990") (Some 14%Z))
     (load_generic_data parse_year df_notes "Birth Rate").
Proof.
  split; [reflexivity|]. split; [left; reflexivity|]. split; [reflexivity|].
  apply (load_keeps_present_cells parse_year df_notes "Birth Rate" 0 "1990"
           (mk_raw "Sweden" "SWE" "Birth rate, crude" "SP.DYN.CBRT.IN" [Some 14%Z; Some 1%Z]) 14%Z);
    [reflexivity | left; reflexivity | reflexivity].
Defined.

Lemma cache_lookup_insert {V : Type} k t (c : cache V) :
  cache_lookup k ((k, t) :: c) = Some t.
Proof. simpl. rewrite (proj2 (args_eqb_true k k) eq_refl). reflexivity. Qed.

(** X3.  After one call, a second call with the same arguments is a cache
    hit whatever the files then contain: it returns the first table and
    leaves the cache unchanged, so an edited file is not read again. *)
Theorem cached_load_second_call {V : Type} (to_numeric : string -> option Z)
  (fs fs' : string -> frame V) (c : cache V) (csv_path value_name : string) :
  let '(t1, c1) := cached_load to_numeric fs c csv_path value_name in
  cached_load to_numeric fs' c1 csv_path value_name = (t1, c1).
Proof.
  unfold cached_load. destruct (cache_lookup (csv_path, value_name) c) as [t|] eqn:E.
  - rewrite E. reflexivity.
  - rewrite cache_lookup_insert. reflexivity.
Qed.

(** X4.  A call changes the stored table of no other arguments. *)
Theorem cached_load_other_args {V : Type} (to_numeric : string -> option Z)
  (fs : string -> frame V) (c : cache V) (csv_path value_name : string)
  (k : string * string) :
  k <> (csv_path, value_name) ->
  cache_lookup k (snd (cached_load to_numeric fs c csv_path value_name)) = cache_lookup k c.
Proof.
  intros Hk. unfold cached_load.
  destruct (cache_lookup (csv_path, value_name) c); simpl; auto.
  destruct (args_eqb k (csv_path, value_name)) eqn:E; auto.
  apply args_eqb_true in E. contradiction.
Qed.

Lemma cached_load_other_args_witness :
  ("gdp.csv", "Real GDP (USD)") <> ("birth.csv", "Birth Rate") /\
  cache_lookup ("gdp.csv", "Real GDP (USD)")
    (snd (cached_load parse_year (fun _ => df_notes) [(("gdp.csv", "Real GDP (USD)"), [row_sw_gdp])]
                      "birth.csv" "Birth Rate")) = Some [row_sw_gdp].
Proof.
  assert (H : ("gdp.csv", "Real GDP (USD)") <> ("birth.csv", "Birth Rate")) by discriminate.
  split; [exact H|].
  rewrite (cached_load_other_args parse_year (fun _ => df_notes)
             [(("gdp.csv", "Real GDP (USD)"), [row_sw_gdp])] "birth.csv" "Birth Rate" _ H).
  reflexivity.
Defined.

(** X5.  Filtering depends only on which countries are selected, not on the
    order or repetition of the selection. *)
Theorem filter_countries_same_members {V : Type} (S S' : list string) (df : dataset V) :
  (forall c, In c S <-> In c S') -> filter_countries S df = filter_countries S' df.
Proof.
  intros H. unfold filter_countries. apply filter_ext. intros o.
  destruct (isin S o) eqn:E1, (isin S' o) eqn:E2; auto.
  - apply isin_true in E1. apply H in E1. apply isin_true in E1. congruence.
  - apply isin_true in E2. apply H in E2. apply isin_true in E2. congruence.
Qed.

Lemma filter_countries_same_members_witness :
  (forall c, In c ["Switzerland"; "Sweden"; "Sweden"] <-> In c ["Sweden"; "Switzerland"]) /\
  filter_countries ["Switzerland"; "Sweden"; "Sweden"] [row_sw; row_no; row_ch] =
  filter_countries ["Sweden"; "Switzerland"] [row_sw; row_no; row_ch].
Proof.
  assert (H : forall c, In c ["Switzerland"; "Sweden"; "Sweden"] <-> In c ["Sweden"; "Switzerland"])
    by (intros c; simpl; tauto).
  split; [exact H | apply filter_countries_same_members, H].
Defined.

(** ** The country options of the multiselect *)

(** [sorted(...)] on strings: Python orders strings by code point,
    lexicographically, which [String.leb] does on ASCII text. *)
Fixpoint str_insert (s : string) (l : list string) : list string :=
  match l with
  | [] => [s]
  | b :: l' => if String.leb s b then s :: l else b :: str_insert s l'
  end.

Fixpoint str_sorted (l : list string) : list string :=
  match l with
  | [] => []
  | s :: l' => str_insert s (str_sorted l')
  end.

(** [countries = sorted(set().union(...))]: the union of the sets of
    [df["Country Name"].unique()] over all loaded datasets, sorted. *)
Definition available_countries {V : Type} (datasets : list (string * dataset V))
  : list string :=
  str_sorted (nodup string_dec (flat_map (fun '(_, df) => map cname df) datasets)).

Lemma str_insert_perm s l : Permutation (str_insert s l) (s :: l).
Proof.
  induction l as [|b l IH]; simpl; auto.
  destruct (String.leb s b); auto.
  eapply perm_trans; [apply perm_skip, IH | apply perm_swap].
Qed.

Lemma str_sorted_perm l : Permutation (str_sorted l) l.
Proof.
  induction l as [|s l IH]; simpl; auto.
  eapply perm_trans; [apply str_insert_perm | apply perm_skip, IH].
Qed.

Lemma leb_false_flip s b : String.leb s b = false -> String.leb b s = true.
Proof. intros H. destruct (String.leb_total s b); congruence. Qed.

Lemma str_insert_sorted s l :
  Sorted (fun a b => String.leb a b = true) l ->
  Sorted (fun a b => String.leb a b = true) (str_insert s l).
Proof.
  induction 1 as [|b l Hs IH Hhd]; simpl.
  - repeat constructor.
  - destruct (String.leb s b) eqn:E.
    + constructor; [constructor; auto | constructor; exact E].
    + constructor; [exact IH|].
      destruct l as [|c l]; simpl.
      * constructor. apply leb_false_flip, E.
      * inversion Hhd; subst. destruct (String.leb s c); constructor; auto.
        apply leb_false_flip, E.
Qed.

Lemma str_sorted_sorted l : Sorted (fun a b => String.leb a b = true) (str_sorted l).
Proof. induction l; simpl; [constructor | apply str_insert_sorted; auto]. Qed.

(** X6.  The multiselect offers each country name of any loaded dataset
    exactly once, in ascending order, and nothing else. *)
Theorem available_countries_spec {V : Type} (datasets : list (string * dataset V)) :
  Sorted (fun a b => String.leb a b = true) (available_countries datasets) /\
  NoDup (available_countries datasets) /\
  (forall c, In c (available_countries datasets) <->
             exists n df, In (n, df) datasets /\ In c (map cname df)).
Proof.
  unfold available_countries. split; [apply str_sorted_sorted|]. split.
  - eapply Permutation_NoDup; [apply Permutation_sym, str_sorted_perm | apply NoDup_nodup].
  - intros c. split.
    + intros H. apply (Permutation_in _ (str_sorted_perm _)), nodup_In, in_flat_map in H
        as ([n df] & Hin & Hc). exists n, df. auto.
    + intros (n & df & Hin & Hc). apply (Permutation_in _ (Permutation_sym (str_sorted_perm _))).
      apply nodup_In, in_flat_map. exists (n, df). auto.
Qed.

(** ** How main composes its views *)

Lemma lookup_in {V : Type} n (ds : list (string * dataset V)) d :
  lookup n ds = Some d -> In (n, d) ds.
Proof.
  induction ds as [|[k d'] ds IH]; simpl; [discriminate|].
  destruct (String.eqb n k) eqn:E; intros H; [left | right; auto].
  apply String.eqb_eq in E. inversion H; subst. reflexivity.
Qed.

Lemma country_data_filtered {V : Type} S c (df : dataset V) :
  In c S -> country_data c (filter_countries S df) = country_data c df.
Proof.
  intros Hc. unfold country_data, filter_countries.
  induction df as [|o df IH]; simpl; auto.
  destruct (isin S o) eqn:E; simpl.
  - destruct (String.eqb (cname o) c); rewrite IH; reflexivity.
  - destruct (String.eqb (cname o) c) eqn:E2; [|exact IH].
    apply String.eqb_eq in E2. subst c. apply (proj2 (isin_true S o)) in Hc. congruence.
Qed.

Lemma in_stats_view {V : Type} (f : list (string * dataset V)) n df :
  In (n, df) f -> In (DescribeTable n df) (stats_view f).
Proof.
  intros H. unfold stats_view. apply in_flat_map. exists (n, df). simpl. auto.
Qed.


Definition row_sw_gdp90 : row Z :=
  mk_obs "Sweden" "SWE" "Adjusted net national income per capita" "NY.ADJ.NNTY.PC.CD" (Some 1990%Z) (Some 25000%Z).

Definition ds_two : list (string * dataset Z) :=
  [("Birth Rate", [row_sw; row_no; row_ch]); ("Real GDP (USD)", [row_sw_gdp90])].


(** X8.  Whatever the axis choices, a run with countries selected renders
    the summary table of every dataset, restricted to the selection; a
    warning suppresses only its own view. *)
Theorem main_stats_every_dataset {V : Type} (datasets : list (string * dataset V))
  (selected : list string) (ui : choices) (evs : list (event V)) (n : string) (df : dataset V) :
  selected <> [] -> main datasets selected ui = Some evs -> In (n, df) datasets ->
  In (Subheader (n ++ " Summary Statistics")) evs /\
  In (DescribeTable n (filter_countries selected df)) evs.
Proof.
  intros Hs Hm Hin. apply main_some in Hm as (ts & corr & _ & _ & ->); [|exact Hs].
  assert (Hf : In (n, filter_countries selected df) (filter_datasets selected datasets)).
  { unfold filter_datasets. apply in_map_iff. exists (n, df). auto. }
  split; apply in_or_app; right; apply in_or_app; right; apply in_or_app; left.
  - unfold stats_view. apply in_flat_map. exists (n, filter_countries selected df). simpl. auto.
  - apply in_stats_view, Hf.
Qed.

Lemma main_stats_every_dataset_witness :
  exists evs, main ds_two ["Sweden"] ui_same = Some evs /\
  In (Subheader ("Real GDP (USD)" ++ " Summary Statistics")) evs /\
  In (DescribeTable "Real GDP (USD)" (filter_countries ["Sweden"] [row_sw_gdp90])) evs.
Proof.
  eexists. split; [reflexivity|].
  apply (main_stats_every_dataset ds_two ["Sweden"] ui_same); [discriminate | reflexivity | right; left; reflexivity].
Defined.




